(** * gRPC server probe: version gating, constant resolution, event decoding

    A shallow embedding of
    [internal/pkg/instrumentation/bpf/google.golang.org/grpc/server/probe.go]
    together with the statements of the probe specification that concern it.

    Conventions.
    - Go's fixed-width integers ([uint64], [int32], [uint8]) are values of [Z];
      the probe only compares and copies them, so no wrap-around occurs.
    - Go strings are [string]; byte arrays and slices are [list byte].
    - [map[string]*semver.Version] is a [gmap string Version].
    - The package-level variable [serverAddr] lives in an explicit record of
      globals that is threaded through the code that reads or writes it.
    - Functions of other libraries that the probe calls but whose result no
      statement depends on are Section variables. *)

From Stdlib Require Import ZArith Strings.Byte.
From stdpp Require Import base gmap strings list.

Local Open Scope string_scope.
Local Open Scope Z_scope.

(** ** Results and the globals-passing monad *)

(** A Go [(T, error)] pair: either the value or the error's message. *)
Inductive result (A : Type) : Type :=
| Ok (a : A)
| Err (msg : string).
Arguments Ok {A} a.
Arguments Err {A} msg.

Definition is_Err {A} (r : result A) : bool :=
  match r with Err _ => true | Ok _ => false end.

(** Package-level mutable variables of package [server] (probe.go:275-278). *)
Record Globals : Type := mkGlobals { serverAddr : bool }.

(** [serverAddr = false] at program start. *)
Definition initGlobals : Globals := {| serverAddr := false |}.

(** Code that may fail and may touch the package globals. *)
Definition M (A : Type) : Type := Globals -> result A * Globals.

Definition ret {A} (a : A) : M A := fun g => (Ok a, g).
Definition throw {A} (msg : string) : M A := fun g => (Err msg, g).
Definition bind {A B} (m : M A) (k : A -> M B) : M B :=
  fun g => match m g with
           | (Ok a, g') => k a g'
           | (Err e, g') => (Err e, g')
           end.
Definition load_serverAddr : M bool := fun g => (Ok (serverAddr g), g).
Definition store_serverAddr (b : bool) : M unit :=
  fun _ => (Ok tt, {| serverAddr := b |}).

#[global] Instance M_ret : MRet M := @ret.
#[global] Instance M_bind : MBind M := fun A B k m => bind m k.

(** ** Data of the collaborating packages *)

(** [semver.Version] of github.com/Masterminds/semver/v3. The [original]
    field (the text the version was parsed from) plays no part in any
    comparison and is left out. *)
Record Version : Type := mkVersion {
  major : Z;
  minor : Z;
  patch : Z;
  pre : string;
  metadata : string
}.

(** [semver.New(major, minor, patch, pre, metadata)]. *)
Definition semver_New (ma mi pa : Z) (p md : string) : Version :=
  {| major := ma; minor := mi; patch := pa; pre := p; metadata := md |}.

(** The comparison operators a [semver.Constraints] of this probe is built
    from: ["<"], [">"] and [">="]. *)
Inductive constraintOp : Type := OpLT | OpGT | OpGTE.

(** One parsed comparison [origfunc con]. Every constraint of the probe names
    a full [x.y.z] version, so the parser's "dirty" flags are all false. *)
Record constraint : Type := mkConstraint {
  origfunc : constraintOp;
  con : Version
}.

(** [semver.Constraints]: an OR of AND-groups. *)
Definition semver_Constraints : Type := list (list constraint).

(** [process.Info]: only the [Modules] field is read by the probe. *)
Record process_Info : Type := mkInfo {
  Modules : gmap string Version
}.

(** [inject.Option] as built by [inject.WithKeyValue]; the probe only ever
    passes a boolean value. *)
Inductive inject_Option : Type :=
| WithKeyValue (key : string) (value : bool).

(** [probe.FailureMode]; the specification names two modes. *)
Inductive probe_FailureMode : Type :=
| FailureModeIgnore
| FailureModeFail.

(** [probe.PackageConstraints]. *)
Record probe_PackageConstraints : Type := mkPackageConstraints {
  Package : string;
  Constraints : semver_Constraints;
  FailureMode : probe_FailureMode
}.

(** [probe.Uprobe]. A field the literal leaves out has Go's zero value. *)
Record probe_Uprobe : Type := mkUprobe {
  Sym : string;
  EntryProbe : string;
  ReturnProbe : string;
  PackageConstraints : list probe_PackageConstraints
}.

(** [codes.Code] of google.golang.org/grpc/codes: the canonical gRPC status
    codes with their numbers. *)
Module codes.
Definition OK : Z := 0.
Definition Canceled : Z := 1.
Definition Unknown : Z := 2.
Definition InvalidArgument : Z := 3.
Definition DeadlineExceeded : Z := 4.
Definition NotFound : Z := 5.
Definition AlreadyExists : Z := 6.
Definition PermissionDenied : Z := 7.
Definition ResourceExhausted : Z := 8.
Definition FailedPrecondition : Z := 9.
Definition Aborted : Z := 10.
Definition OutOfRange : Z := 11.
Definition Unimplemented : Z := 12.
Definition Internal : Z := 13.
Definition Unavailable : Z := 14.
Definition DataLoss : Z := 15.
Definition Unauthenticated : Z := 16.
End codes.

(** [attribute.KeyValue] of go.opentelemetry.io/otel/attribute, with the two
    value types the probe builds. *)
Module attribute.
Inductive Value : Type :=
| STRING (s : string)
| INT64 (i : Z).
Record KeyValue : Type := mkKeyValue { Key : string; Val : Value }.
(** [Key.String(v)] and [Key.Int(v)]. *)
Definition String (k : string) (v : string) : KeyValue :=
  {| Key := k; Val := STRING v |}.
Definition Int (k : string) (v : Z) : KeyValue :=
  {| Key := k; Val := INT64 v |}.
End attribute.

(** Attribute keys of semconv v1.30.0. *)
Module semconv.
Definition RPCSystemKey : string := "rpc.system".
Definition RPCServiceKey : string := "rpc.service".
Definition RPCGRPCStatusCodeKey : string := "rpc.grpc.status_code".
Definition ServerAddressKey : string := "server.address".
Definition ServerPortKey : string := "server.port".
Definition ServerAddress (val : string) : attribute.KeyValue :=
  attribute.String ServerAddressKey val.
Definition ServerPort (val : Z) : attribute.KeyValue :=
  attribute.Int ServerPortKey val.
End semconv.

(** [pcommon.Map]: an ordered list of entries with unique keys; [Put]
    overwrites the value of a key that is present and appends otherwise. *)
Module pcommon.
Definition Map : Type := list (string * attribute.Value).
Definition NewMap : Map := [].
Fixpoint Get (m : Map) (k : string) : option attribute.Value :=
  match m with
  | [] => None
  | (k', v) :: m' => if String.eqb k' k then Some v else Get m' k
  end.
Fixpoint Put (m : Map) (k : string) (v : attribute.Value) : Map :=
  match m with
  | [] => [(k, v)]
  | (k', v') :: m' =>
      if String.eqb k' k then (k', v) :: m' else (k', v') :: Put m' k v
  end.
End pcommon.

(** [ptrace.Span] with the fields the probe sets, and [ptrace.SpanSlice]. *)
Module ptrace.
Inductive SpanKind : Type :=
| SpanKindUnspecified
| SpanKindInternal
| SpanKindServer
| SpanKindClient
| SpanKindProducer
| SpanKindConsumer.
Inductive StatusCode : Type :=
| StatusCodeUnset
| StatusCodeOk
| StatusCodeError.
Record Span : Type := mkSpan {
  Name : string;
  Kind : SpanKind;
  StartTimestamp : Z;
  EndTimestamp : Z;
  TraceID : list byte;
  SpanID : list byte;
  Flags : Z;
  ParentSpanID : list byte;
  Status : StatusCode;
  Attributes : pcommon.Map
}.
(** The all-zero identifiers a fresh span holds. *)
Definition emptyTraceID : list byte := repeat x00 16.
Definition emptySpanID : list byte := repeat x00 8.
(** The span [AppendEmpty] adds: every field at its zero value. *)
Definition emptySpan : Span :=
  {| Name := EmptyString; Kind := SpanKindUnspecified;
     StartTimestamp := 0; EndTimestamp := 0;
     TraceID := emptyTraceID; SpanID := emptySpanID; Flags := 0;
     ParentSpanID := emptySpanID; Status := StatusCodeUnset;
     Attributes := pcommon.NewMap |}.
Definition SetName (s : Span) (v : string) : Span :=
  {| Name := v; Kind := Kind s; StartTimestamp := StartTimestamp s;
     EndTimestamp := EndTimestamp s; TraceID := TraceID s; SpanID := SpanID s;
     Flags := Flags s; ParentSpanID := ParentSpanID s; Status := Status s;
     Attributes := Attributes s |}.
Definition SetKind (s : Span) (v : SpanKind) : Span :=
  {| Name := Name s; Kind := v; StartTimestamp := StartTimestamp s;
     EndTimestamp := EndTimestamp s; TraceID := TraceID s; SpanID := SpanID s;
     Flags := Flags s; ParentSpanID := ParentSpanID s; Status := Status s;
     Attributes := Attributes s |}.
Definition SetStartTimestamp (s : Span) (v : Z) : Span :=
  {| Name := Name s; Kind := Kind s; StartTimestamp := v;
     EndTimestamp := EndTimestamp s; TraceID := TraceID s; SpanID := SpanID s;
     Flags := Flags s; ParentSpanID := ParentSpanID s; Status := Status s;
     Attributes := Attributes s |}.
Definition SetEndTimestamp (s : Span) (v : Z) : Span :=
  {| Name := Name s; Kind := Kind s; StartTimestamp := StartTimestamp s;
     EndTimestamp := v; TraceID := TraceID s; SpanID := SpanID s;
     Flags := Flags s; ParentSpanID := ParentSpanID s; Status := Status s;
     Attributes := Attributes s |}.
Definition SetTraceID (s : Span) (v : list byte) : Span :=
  {| Name := Name s; Kind := Kind s; StartTimestamp := StartTimestamp s;
     EndTimestamp := EndTimestamp s; TraceID := v; SpanID := SpanID s;
     Flags := Flags s; ParentSpanID := ParentSpanID s; Status := Status s;
     Attributes := Attributes s |}.
Definition SetSpanID (s : Span) (v : list byte) : Span :=
  {| Name := Name s; Kind := Kind s; StartTimestamp := StartTimestamp s;
     EndTimestamp := EndTimestamp s; TraceID := TraceID s; SpanID := v;
     Flags := Flags s; ParentSpanID := ParentSpanID s; Status := Status s;
     Attributes := Attributes s |}.
Definition SetFlags (s : Span) (v : Z) : Span :=
  {| Name := Name s; Kind := Kind s; StartTimestamp := StartTimestamp s;
     EndTimestamp := EndTimestamp s; TraceID := TraceID s; SpanID := SpanID s;
     Flags := v; ParentSpanID := ParentSpanID s; Status := Status s;
     Attributes := Attributes s |}.
Definition SetParentSpanID (s : Span) (v : list byte) : Span :=
  {| Name := Name s; Kind := Kind s; StartTimestamp := StartTimestamp s;
     EndTimestamp := EndTimestamp s; TraceID := TraceID s; SpanID := SpanID s;
     Flags := Flags s; ParentSpanID := v; Status := Status s;
     Attributes := Attributes s |}.
(** [span.Status().SetCode(v)]. *)
Definition SetStatusCode (s : Span) (v : StatusCode) : Span :=
  {| Name := Name s; Kind := Kind s; StartTimestamp := StartTimestamp s;
     EndTimestamp := EndTimestamp s; TraceID := TraceID s; SpanID := SpanID s;
     Flags := Flags s; ParentSpanID := ParentSpanID s; Status := v;
     Attributes := Attributes s |}.
(** Writing through the map handle [span.Attributes()] returns. *)
Definition SetAttributes (s : Span) (v : pcommon.Map) : Span :=
  {| Name := Name s; Kind := Kind s; StartTimestamp := StartTimestamp s;
     EndTimestamp := EndTimestamp s; TraceID := TraceID s; SpanID := SpanID s;
     Flags := Flags s; ParentSpanID := ParentSpanID s; Status := Status s;
     Attributes := v |}.
Definition SpanSlice : Type := list Span.
Definition NewSpanSlice : SpanSlice := [].
End ptrace.

(** [context.EBPFSpanContext] and [context.BaseSpanProperties]: the fields
    [processFn] reads. *)
Record context_EBPFSpanContext : Type := mkEBPFSpanContext {
  TraceID : list byte;
  SpanID : list byte
}.

Record context_BaseSpanProperties : Type := mkBaseSpanProperties {
  StartTime : Z;
  EndTime : Z;
  SpanContext : context_EBPFSpanContext;
  ParentSpanContext : context_EBPFSpanContext
}.

(** [NetAddr] (probe.go:300-303). *)
Record NetAddr : Type := mkNetAddr {
  IP : list byte;
  Port : Z
}.

(** [event] (probe.go:292-298). [Method] is a [[100]byte] array, [IP] a
    [[16]uint8] array, the identifiers are 16- and 8-byte arrays. *)
Record event : Type := mkEvent {
  BaseSpanProperties : context_BaseSpanProperties;
  Method : list byte;
  StatusCode : Z;
  LocalAddr : NetAddr;
  HasStatus : Z
}.

(** The array lengths that Go's types fix. *)
Definition event_wf (e : event) : Prop :=
  length (Method e) = 100%nat /\
  length (IP (LocalAddr e)) = 16%nat /\
  length (TraceID (SpanContext (BaseSpanProperties e))) = 16%nat /\
  length (SpanID (SpanContext (BaseSpanProperties e))) = 8%nat /\
  length (SpanID (ParentSpanContext (BaseSpanProperties e))) = 8%nat.

(** [probe.Const]: the interface of a constant resolver. *)
Record probe_Const : Type := mkConst {
  InjectOption : process_Info -> M inject_Option
}.

(** ** Package constants (probe.go:33-44, 262, 275-277) *)

Definition pkg : string := "google.golang.org/grpc".

Definition writeStatusMinVersion : Version := semver_New 1 40 0 EmptyString EmptyString.
Definition serverStreamVersion : Version := semver_New 1 69 0 EmptyString EmptyString.
Definition paramChangeVer : Version := semver_New 1 60 0 EmptyString EmptyString.
Definition serverAddrMinVersion : Version := semver_New 1 60 0 EmptyString EmptyString.

(** The elements of the [Uprobes] literal of [New] (probe.go:175-238), in
    order. Each [Constraints] value is the parse of the string the source
    builds: ["< 1.69.0"], [">= 1.69.0"], ["> 1.40.0, < 1.69.0"] and
    [">= 1.69.0"]. *)
Definition up_handleStream : probe_Uprobe :=
  {| Sym := "google.golang.org/grpc.(*Server).handleStream";
     EntryProbe := "uprobe_server_handleStream";
     ReturnProbe := "uprobe_server_handleStream_Returns";
     PackageConstraints :=
       [ {| Package := "google.golang.org/grpc";
            Constraints := [[ mkConstraint OpLT serverStreamVersion ]];
            FailureMode := FailureModeIgnore |} ] |}.

Definition up_handleStream2 : probe_Uprobe :=
  {| Sym := "google.golang.org/grpc.(*Server).handleStream";
     EntryProbe := "uprobe_server_handleStream2";
     ReturnProbe := "uprobe_server_handleStream2_Returns";
     PackageConstraints :=
       [ {| Package := "google.golang.org/grpc";
            Constraints := [[ mkConstraint OpGTE serverStreamVersion ]];
            FailureMode := FailureModeIgnore |} ] |}.

Definition up_operateHeaders : probe_Uprobe :=
  {| Sym := "google.golang.org/grpc/internal/transport.(*http2Server).operateHeaders";
     EntryProbe := "uprobe_http2Server_operateHeader";
     ReturnProbe := EmptyString;
     PackageConstraints := [] |}.

Definition up_WriteStatus : probe_Uprobe :=
  {| Sym := "google.golang.org/grpc/internal/transport.(*http2Server).WriteStatus";
     EntryProbe := "uprobe_http2Server_WriteStatus";
     ReturnProbe := EmptyString;
     PackageConstraints :=
       [ {| Package := "google.golang.org/grpc";
            Constraints := [[ mkConstraint OpGT writeStatusMinVersion;
                              mkConstraint OpLT serverStreamVersion ]];
            FailureMode := FailureModeIgnore |} ] |}.

Definition up_writeStatus : probe_Uprobe :=
  {| Sym := "google.golang.org/grpc/internal/transport.(*http2Server).writeStatus";
     EntryProbe := "uprobe_http2Server_WriteStatus2";
     ReturnProbe := EmptyString;
     PackageConstraints :=
       [ {| Package := "google.golang.org/grpc";
            Constraints := [[ mkConstraint OpGTE serverStreamVersion ]];
            FailureMode := FailureModeIgnore |} ] |}.

Definition Uprobes : list probe_Uprobe :=
  [ up_handleStream; up_handleStream2; up_operateHeaders;
    up_WriteStatus; up_writeStatus ].

Section Probe.

(** [comparePrerelease] of the semver library orders two non-empty
    pre-release strings; no version constant of the probe has one, so its
    result is left open. *)
Variable comparePrerelease : string -> string -> Z.

Definition compareSegment (v o : Z) : Z :=
  if v <? o then -1 else if v >? o then 1 else 0.

(** [Version.Compare]: by major, minor, patch, then by pre-release, a
    release ranking above any of its pre-releases. *)
Definition Compare (v o : Version) : Z :=
  let d := compareSegment (major v) (major o) in
  if negb (d =? 0) then d else
  let d := compareSegment (minor v) (minor o) in
  if negb (d =? 0) then d else
  let d := compareSegment (patch v) (patch o) in
  if negb (d =? 0) then d else
  let ps := pre v in
  let po := pre o in
  if String.eqb ps EmptyString && String.eqb po EmptyString then 0
  else if String.eqb ps EmptyString then 1
  else if String.eqb po EmptyString then -1
  else comparePrerelease ps po.

Definition GreaterThanEqual (v o : Version) : bool := Compare v o >=? 0.

(** One comparison of a constraint ([constraintLessThan],
    [constraintGreaterThan], [constraintGreaterThanEqual] of the semver
    library, for a constraint that names a full version). A version that
    carries a pre-release never satisfies a comparison against a release
    version. *)
Definition constraint_check (c : constraint) (v : Version) : bool :=
  if negb (String.eqb (pre v) EmptyString) && String.eqb (pre (con c)) EmptyString then false
  else match origfunc c with
       | OpLT => Compare v (con c) <? 0
       | OpGT => Compare v (con c) =? 1
       | OpGTE => Compare v (con c) >=? 0
       end.

(** [Constraints.Check]: some OR-group has all of its comparisons pass. *)
Definition Constraints_Check (cs : semver_Constraints) (v : Version) : bool :=
  existsb (fun o => forallb (fun c => constraint_check c v) o) cs.

(** One [(library, constraint, mode)] triple against the detected versions.
    Modelled from the spec: a library without a detected version leaves the
    constraint unmet (§4.1); the lookup itself is done by [probe.Base],
    outside the probe's file. *)
Definition PackageConstraints_met
    (mods : gmap string Version) (pc : probe_PackageConstraints) : bool :=
  match mods !! Package pc with
  | Some v => Constraints_Check (Constraints pc) v
  | None => false
  end.

(** All version constraints of an attachment point are satisfied. *)
Definition Uprobe_satisfied
    (mods : gmap string Version) (up : probe_Uprobe) : bool :=
  forallb (PackageConstraints_met mods) (PackageConstraints up).

(** Modelled from the spec: step 1 of the Attachment Resolver (§4.3), which
    [probe.Base] implements outside the probe's file. An attachment point
    with an unmet Fail-mode triple aborts the whole probe ([None]); one whose
    unmet triples are all Ignore-mode is dropped; the others are kept, in
    declaration order. *)
Definition unmet_Fail
    (mods : gmap string Version) (pc : probe_PackageConstraints) : bool :=
  negb (PackageConstraints_met mods pc) &&
  match FailureMode pc with FailureModeFail => true | FailureModeIgnore => false end.

(** Modelled from the spec: the selection loop of the same step, over the
    attachment points in declaration order. *)
Fixpoint resolveUprobes
    (mods : gmap string Version) (ups : list probe_Uprobe)
  : option (list probe_Uprobe) :=
  match ups with
  | [] => Some []
  | up :: rest =>
      if existsb (unmet_Fail mods) (PackageConstraints up) then None
      else match resolveUprobes mods rest with
           | None => None
           | Some sel =>
               if Uprobe_satisfied mods up then Some (up :: sel) else Some sel
           end
  end.

(** The attachment points of one symbol whose constraints all hold. *)
Definition satisfiedFor
    (mods : gmap string Version) (sym : string) : list probe_Uprobe :=
  List.filter (fun up => String.eqb (Sym up) sym && Uprobe_satisfied mods up)
              Uprobes.

(** ** Constant resolvers (probe.go:254-289) *)

(** [framePosConst.InjectOption]. *)
Definition framePosConst_InjectOption (info : process_Info) : M inject_Option :=
  match Modules info !! pkg with
  | None => throw ("unknown module version: " ++ pkg)%string
  | Some ver =>
      mret (WithKeyValue "is_new_frame_pos" (GreaterThanEqual ver paramChangeVer))
  end.

(** [serverAddrConst.InjectOption]: the only writer of [serverAddr]. *)
Definition serverAddrConst_InjectOption (info : process_Info) : M inject_Option :=
  match Modules info !! pkg with
  | None => throw ("unknown module version: " ++ pkg)%string
  | Some ver =>
      (if GreaterThanEqual ver serverAddrMinVersion
       then store_serverAddr true
       else mret tt) ;;
      sa ← load_serverAddr ;
      mret (WithKeyValue "server_addr_supported" sa)
  end.

Definition framePosConst : probe_Const :=
  {| InjectOption := framePosConst_InjectOption |}.
Definition serverAddrConst : probe_Const :=
  {| InjectOption := serverAddrConst_InjectOption |}.

(** Modelled from the spec: step 3 of the Attachment Resolver (§4.3), which
    [probe.Base] implements outside the probe's file: every constant's
    resolver is invoked in declaration order, the values are collected, and
    the first failure aborts. *)
Fixpoint resolveConsts
    (cs : list probe_Const) (info : process_Info) : M (list inject_Option) :=
  match cs with
  | [] => mret []
  | c :: cs' =>
      o ← InjectOption c info ;
      os ← resolveConsts cs' info ;
      mret (o :: os)
  end.

(** ** Event processing (probe.go:309-354) *)

(** [bytes.IndexByte]: the index of the first [c] in [s], or [-1]. *)
Fixpoint IndexByte (s : list byte) (c : byte) : Z :=
  match s with
  | [] => -1
  | b :: s' =>
      if Byte.eqb b c then 0
      else let i := IndexByte s' c in
           if i =? -1 then -1 else i + 1
  end.

(** [unix.ByteSliceToString]. *)
Definition ByteSliceToString (s : list byte) : string :=
  let i := IndexByte s x00 in
  let s := if negb (i =? -1) then take (Z.to_nat i) s else s in
  String.string_of_list_byte s.

(** [bytes.Equal]. *)
Fixpoint bytes_Equal (a b : list byte) : bool :=
  match a, b with
  | [], [] => true
  | x :: a', y :: b' => Byte.eqb x y && bytes_Equal a' b'
  | _, _ => false
  end.

(** [trace.SpanID.IsValid]: the identifier is not the all-zero one. *)
Definition nilSpanID : list byte := repeat x00 8.
Definition SpanID_IsValid (s : list byte) : bool :=
  negb (bytes_Equal s nilSpanID).

(** [trace.FlagsSampled]. *)
Definition FlagsSampled : Z := 1.

(** Modelled from the spec: [pdataconv.Attributes] lives outside the probe's
    file; it copies the attributes, in order, into the span's attribute set
    (§3 Span: "a set of key-value attributes"), so a key that occurs twice
    keeps one entry with the later value. *)
Definition pdataconv_Attributes
    (dest : pcommon.Map) (attrs : list attribute.KeyValue) : pcommon.Map :=
  fold_left (fun m kv => pcommon.Put m (attribute.Key kv) (attribute.Val kv))
            attrs dest.

(** [net.IP.String] of the Go standard library formats the 16 address bytes;
    [kernel.BootOffsetToTimestamp] adds the machine's boot time to a
    boot-relative offset. No statement below depends on their results. *)
Variable net_IP_String : list byte -> string.
Variable BootOffsetToTimestamp : Z -> Z.

(** The case list of the [switch e.StatusCode] in [processFn]. *)
Definition isErrorCode (c : Z) : bool :=
  (c =? codes.Unknown) || (c =? codes.DeadlineExceeded) ||
  (c =? codes.Unimplemented) || (c =? codes.Internal) ||
  (c =? codes.Unavailable) || (c =? codes.DataLoss).

(** [processor.processFn]. Logging has no effect on the result. *)
Definition processFn (e : event) : M ptrace.SpanSlice :=
  let method := ByteSliceToString (Method e) in
  let spans := ptrace.NewSpanSlice in
  let span := ptrace.emptySpan in
  let span := ptrace.SetName span method in
  let span := ptrace.SetKind span ptrace.SpanKindServer in
  let span := ptrace.SetStartTimestamp span
                (BootOffsetToTimestamp (StartTime (BaseSpanProperties e))) in
  let span := ptrace.SetEndTimestamp span
                (BootOffsetToTimestamp (EndTime (BaseSpanProperties e))) in
  let span := ptrace.SetTraceID span
                (TraceID (SpanContext (BaseSpanProperties e))) in
  let span := ptrace.SetSpanID span
                (SpanID (SpanContext (BaseSpanProperties e))) in
  let span := ptrace.SetFlags span FlagsSampled in
  let span :=
    if SpanID_IsValid (SpanID (ParentSpanContext (BaseSpanProperties e)))
    then ptrace.SetParentSpanID span
           (SpanID (ParentSpanContext (BaseSpanProperties e)))
    else span in
  let attrs :=
    [ attribute.String semconv.RPCSystemKey "grpc";
      attribute.String semconv.RPCServiceKey method;
      attribute.Int semconv.RPCGRPCStatusCodeKey (StatusCode e) ] in
  let '(attrs, span) :=
    if negb (HasStatus e =? 0) then
      ((attrs ++ [attribute.Int semconv.RPCGRPCStatusCodeKey (StatusCode e)])%list,
       if isErrorCode (StatusCode e)
       then ptrace.SetStatusCode span ptrace.StatusCodeError
       else span)
    else (attrs, span)
    return M ptrace.SpanSlice in
  load_serverAddr ≫= fun sa : bool =>
  let attrs :=
    if sa then
      ((attrs ++ [semconv.ServerAddress (net_IP_String (IP (LocalAddr e)))])
         ++ [semconv.ServerPort (Port (LocalAddr e))])%list
    else attrs in
  let span :=
    ptrace.SetAttributes span
      (pdataconv_Attributes (ptrace.Attributes span) attrs) in
  mret (spans ++ [span])%list.

(** ** Definitions the statements refer to *)

(** The closed set of error-class status codes, as the specification lists
    it: Unknown, DeadlineExceeded, Unimplemented, Internal, Unavailable,
    DataLoss. *)
Definition errorClassCodes : list Z :=
  [ codes.Unknown; codes.DeadlineExceeded; codes.Unimplemented;
    codes.Internal; codes.Unavailable; codes.DataLoss ].

(** A buffer truncated at its first null byte, as the specification words
    the decoding of the name buffer. *)
Fixpoint untilNull (s : list byte) : list byte :=
  match s with
  | [] => []
  | b :: s' => if Byte.eqb b x00 then [] else b :: untilNull s'
  end.

(** The attribute list [processFn] hands to [pdataconv.Attributes]. *)
Definition eventAttrs (sa : bool) (e : event) : list attribute.KeyValue :=
  ([ attribute.String semconv.RPCSystemKey "grpc";
     attribute.String semconv.RPCServiceKey (ByteSliceToString (Method e));
     attribute.Int semconv.RPCGRPCStatusCodeKey (StatusCode e) ]
   ++ (if negb (HasStatus e =? 0)
       then [attribute.Int semconv.RPCGRPCStatusCodeKey (StatusCode e)]
       else [])
   ++ (if sa
       then [ semconv.ServerAddress (net_IP_String (IP (LocalAddr e)));
              semconv.ServerPort (Port (LocalAddr e)) ]
       else []))%list.

(** The two resolvers run in the order of the probe's [Consts] list. *)
Definition resolveBoth (info : process_Info) : M (inject_Option * inject_Option) :=
  sa ← serverAddrConst_InjectOption info ;
  fp ← framePosConst_InjectOption info ;
  mret (sa, fp).

(** Sample inputs. *)
Definition release (ma mi pa : Z) : Version :=
  semver_New ma mi pa EmptyString EmptyString.

Definition detected (v : Version) : process_Info :=
  {| Modules := {[ pkg := v ]} |}.

Definition fooMethod : list byte := [x46; x6f; x6f] ++ repeat x00 97.

Definition sampleEvent : event :=
  {| BaseSpanProperties :=
       {| StartTime := 1000; EndTime := 2000;
          SpanContext := {| TraceID := repeat x01 16; SpanID := repeat x02 8 |};
          ParentSpanContext :=
            {| TraceID := repeat x01 16; SpanID := repeat x03 8 |} |};
     Method := fooMethod;
     StatusCode := codes.Unavailable;
     LocalAddr := {| IP := repeat x00 12 ++ [x7f; x00; x00; x01]; Port := 8080 |};
     HasStatus := 1 |}.

(** One use of the package by the probe runtime: resolving one of the two
    constants for a target process, or processing one event. *)
Inductive apiCall : Type :=
| CallFramePosConst (info : process_Info)
| CallServerAddrConst (info : process_Info)
| CallProcessFn (e : event).

(** The package globals after one call; what the call returns is dropped. *)
Definition apiStep (g : Globals) (c : apiCall) : Globals :=
  match c with
  | CallFramePosConst info => (framePosConst_InjectOption info g).2
  | CallServerAddrConst info => (serverAddrConst_InjectOption info g).2
  | CallProcessFn e => (processFn e g).2
  end.

(** The package globals after a sequence of calls. *)
Definition apiRun (g : Globals) (cs : list apiCall) : Globals :=
  fold_left apiStep cs g.

(** A call that resolves [serverAddrConst] for a target whose detected
    version is at or above [serverAddrMinVersion]. *)
Definition raisesServerAddr (c : apiCall) : bool :=
  match c with
  | CallServerAddrConst info =>
      match Modules info !! pkg with
      | Some ver => GreaterThanEqual ver serverAddrMinVersion
      | None => false
      end
  | CallFramePosConst _ => false
  | CallProcessFn _ => false
  end.

(** The boolean a resolved constant carries. *)
Definition optionValue (o : inject_Option) : bool :=
  match o with WithKeyValue _ b => b end.

(** ** Version comparison *)

Lemma compareSegment_release (v o : Z) :
  compareSegment v o = (if v <? o then -1 else if o <? v then 1 else 0).
Proof. unfold compareSegment. now rewrite Z.gtb_ltb. Qed.

(** A ["<"] and a [">="] comparison against the same version never hold
    together. *)
Lemma constraint_check_LT_GTE (c v : Version) :
  constraint_check (mkConstraint OpLT c) v = true ->
  constraint_check (mkConstraint OpGTE c) v = false.
Proof.
  unfold constraint_check; cbn [origfunc con].
  destruct (negb (String.eqb (pre v) EmptyString) && String.eqb (pre c) EmptyString);
    [discriminate|].
  intros H. apply Z.ltb_lt in H. rewrite Z.geb_leb. apply Z.leb_gt. lia.
Qed.

(** [Compare] of two release versions is decided by the three numbers. *)
Lemma Compare_release (a b c x y z : Z) :
  Compare (release a b c) (release x y z) =
  if a <? x then -1 else if x <? a then 1 else
  if b <? y then -1 else if y <? b then 1 else
  if c <? z then -1 else if z <? c then 1 else 0.
Proof.
  unfold Compare, release, semver_New; cbn [major minor patch pre].
  rewrite !compareSegment_release.
  repeat match goal with
         | |- context [?p <? ?q] => destruct (p <? q); cbn; try reflexivity
         end.
Qed.

(** What each attachment point of the probe asks of the detected version of
    the instrumented package. *)
Lemma satisfied_release (mods : gmap string Version) (a b c : Z) :
  mods !! pkg = Some (release a b c) ->
  Uprobe_satisfied mods up_handleStream = (Compare (release a b c) serverStreamVersion <? 0) /\
  Uprobe_satisfied mods up_handleStream2 = (Compare (release a b c) serverStreamVersion >=? 0) /\
  Uprobe_satisfied mods up_operateHeaders = true /\
  Uprobe_satisfied mods up_WriteStatus =
    ((Compare (release a b c) writeStatusMinVersion =? 1) &&
     (Compare (release a b c) serverStreamVersion <? 0)) /\
  Uprobe_satisfied mods up_writeStatus = (Compare (release a b c) serverStreamVersion >=? 0).
Proof.
  intros Hm.
  unfold Uprobe_satisfied, PackageConstraints_met, Constraints_Check,
    constraint_check.
  cbn [up_handleStream up_handleStream2 up_operateHeaders up_WriteStatus
       up_writeStatus PackageConstraints Package Constraints forallb existsb
       origfunc con].
  change "google.golang.org/grpc" with pkg. rewrite Hm.
  cbn [release semver_New pre String.eqb negb andb orb].
  repeat split; try reflexivity;
    repeat rewrite ?andb_true_r, ?orb_false_r; reflexivity.
Qed.

(** ** Attachment points *)

(** The two [handleStream] variants never apply together, whatever was
    detected (a pre-release, or no version at all, satisfies neither). *)
Lemma handleStream_variants_exclusive (mods : gmap string Version) :
  Uprobe_satisfied mods up_handleStream = true ->
  Uprobe_satisfied mods up_handleStream2 = false.
Proof.
  unfold Uprobe_satisfied, PackageConstraints_met, Constraints_Check.
  cbn [up_handleStream up_handleStream2 PackageConstraints Package Constraints
       forallb existsb].
  destruct (mods !! "google.golang.org/grpc") as [v|]; [|discriminate].
  rewrite !andb_true_r, !orb_false_r.
  apply constraint_check_LT_GTE.
Qed.

(** C2. For every detected module-version map and every symbol name, at most
    one of the probe's attachment points for that symbol has all of its
    version constraints satisfied. *)
Theorem uprobes_partition_by_symbol (mods : gmap string Version) (sym : string) :
  (length (satisfiedFor mods sym) <= 1)%nat.
Proof.
  unfold satisfiedFor, Uprobes.
  cbn [List.filter].
  destruct (String.eqb_spec (Sym up_handleStream) sym) as [<-|Hne].
  - change (Sym up_handleStream2 =? Sym up_handleStream)%string with true.
    change (Sym up_operateHeaders =? Sym up_handleStream)%string with false.
    change (Sym up_WriteStatus =? Sym up_handleStream)%string with false.
    change (Sym up_writeStatus =? Sym up_handleStream)%string with false.
    cbn [andb].
    destruct (Uprobe_satisfied mods up_handleStream) eqn:E1.
    + rewrite (handleStream_variants_exclusive mods E1). cbn. lia.
    + destruct (Uprobe_satisfied mods up_handleStream2); cbn; lia.
  - change (Sym up_handleStream2) with (Sym up_handleStream).
    destruct (String.eqb_spec (Sym up_handleStream) sym) as [E|_];
      [contradiction|].
    cbn [andb].
    destruct (String.eqb_spec (Sym up_operateHeaders) sym) as [<-|_].
    + change (Sym up_WriteStatus =? Sym up_operateHeaders)%string with false.
      change (Sym up_writeStatus =? Sym up_operateHeaders)%string with false.
      cbn [andb].
      destruct (Uprobe_satisfied mods up_operateHeaders); cbn; lia.
    + cbn [andb].
      destruct (String.eqb_spec (Sym up_WriteStatus) sym) as [<-|_].
      * change (Sym up_writeStatus =? Sym up_WriteStatus)%string with false.
        cbn [andb].
        destruct (Uprobe_satisfied mods up_WriteStatus); cbn; lia.
      * cbn [andb].
        destruct (String.eqb (Sym up_writeStatus) sym),
                 (Uprobe_satisfied mods up_writeStatus); cbn; lia.
Qed.

(** Every constraint of the probe is Ignore-mode, so no attachment point
    can abort the resolution. *)
Lemma resolveUprobes_Uprobes (mods : gmap string Version) :
  resolveUprobes mods Uprobes =
  Some (List.filter (Uprobe_satisfied mods) Uprobes).
Proof.
  unfold Uprobes, resolveUprobes, unmet_Fail.
  cbn [up_handleStream up_handleStream2 up_operateHeaders up_WriteStatus
       up_writeStatus PackageConstraints FailureMode existsb List.filter].
  rewrite !andb_false_r. cbn [orb].
  repeat match goal with
         | |- context [Uprobe_satisfied mods ?u] =>
             destruct (Uprobe_satisfied mods u)
         end; reflexivity.
Qed.

(** C3. With google.golang.org/grpc detected at 1.65.0 the resolver keeps the
    handleStream attachment point constrained to versions below 1.69.0
    (entry handler uprobe_server_handleStream) and leaves out the variant for
    1.69.0 and above; at 1.70.0 it keeps that variant
    (uprobe_server_handleStream2) and leaves out the other. *)
Theorem resolver_selects_handleStream_variant (mods : gmap string Version) :
  (mods !! pkg = Some (release 1 65 0) ->
   resolveUprobes mods Uprobes =
     Some [up_handleStream; up_operateHeaders; up_WriteStatus] /\
   Uprobe_satisfied mods up_handleStream = true /\
   Uprobe_satisfied mods up_handleStream2 = false) /\
  (mods !! pkg = Some (release 1 70 0) ->
   resolveUprobes mods Uprobes =
     Some [up_handleStream2; up_operateHeaders; up_writeStatus] /\
   Uprobe_satisfied mods up_handleStream2 = true /\
   Uprobe_satisfied mods up_handleStream = false).
Proof.
  split; intros H;
    destruct (satisfied_release _ _ _ _ H) as (E1 & E2 & E3 & E4 & E5);
    change serverStreamVersion with (release 1 69 0) in *;
    change writeStatusMinVersion with (release 1 40 0) in *;
    rewrite !Compare_release in *;
    rewrite resolveUprobes_Uprobes; unfold Uprobes; cbn [List.filter];
    rewrite E1, E2, E3, E4, E5; repeat split; reflexivity.
Qed.

(** C10. With google.golang.org/grpc detected at exactly
    [writeStatusMinVersion] (1.40.0) neither WriteStatus attachment point has
    its constraints satisfied, and the resolver attaches no status-writing
    handler. *)
Theorem no_WriteStatus_at_min_version (mods : gmap string Version) :
  mods !! pkg = Some writeStatusMinVersion ->
  Uprobe_satisfied mods up_WriteStatus = false /\
  Uprobe_satisfied mods up_writeStatus = false /\
  resolveUprobes mods Uprobes = Some [up_handleStream; up_operateHeaders].
Proof.
  intros H. change writeStatusMinVersion with (release 1 40 0) in H.
  destruct (satisfied_release _ _ _ _ H) as (E1 & E2 & E3 & E4 & E5).
  change serverStreamVersion with (release 1 69 0) in *.
  change writeStatusMinVersion with (release 1 40 0) in *.
  rewrite !Compare_release in *.
  rewrite resolveUprobes_Uprobes; unfold Uprobes; cbn [List.filter].
  rewrite E1, E2, E3, E4, E5. repeat split; reflexivity.
Qed.

(** ** Constant resolvers *)

Lemma detected_lookup (v : Version) : Modules (detected v) !! pkg = Some v.
Proof. unfold detected; cbn [Modules]. apply lookup_singleton_eq. Qed.

Lemma framePosConst_missing (info : process_Info) (g : Globals) :
  Modules info !! pkg = None ->
  framePosConst_InjectOption info g =
    (Err "unknown module version: google.golang.org/grpc", g).
Proof. intros H. unfold framePosConst_InjectOption. now rewrite H. Qed.

Lemma serverAddrConst_missing (info : process_Info) (g : Globals) :
  Modules info !! pkg = None ->
  serverAddrConst_InjectOption info g =
    (Err "unknown module version: google.golang.org/grpc", g).
Proof. intros H. unfold serverAddrConst_InjectOption. now rewrite H. Qed.

Lemma framePosConst_found (info : process_Info) (ver : Version) (g : Globals) :
  Modules info !! pkg = Some ver ->
  framePosConst_InjectOption info g =
    (Ok (WithKeyValue "is_new_frame_pos" (GreaterThanEqual ver paramChangeVer)), g).
Proof. intros H. unfold framePosConst_InjectOption. now rewrite H. Qed.

(** The flag is raised for a version at or above the minimum and otherwise
    keeps whatever value it had. *)
Lemma serverAddrConst_found (info : process_Info) (ver : Version) (g : Globals) :
  Modules info !! pkg = Some ver ->
  serverAddrConst_InjectOption info g =
    let sa := GreaterThanEqual ver serverAddrMinVersion || serverAddr g in
    (Ok (WithKeyValue "server_addr_supported" sa), {| serverAddr := sa |}).
Proof.
  intros H. unfold serverAddrConst_InjectOption. rewrite H.
  destruct g as [sa]. destruct (GreaterThanEqual ver serverAddrMinVersion);
    reflexivity.
Qed.

(** A resolver that fails on every state makes the whole list fail. *)
Lemma resolveConsts_aborts (c : probe_Const) (info : process_Info) (cs : list probe_Const) :
  (forall g, is_Err (InjectOption c info g).1 = true) ->
  In c cs ->
  forall g, is_Err (resolveConsts cs info g).1 = true.
Proof.
  intros Hc. induction cs as [|c' cs IH]; intros Hin g; [destruct Hin|].
  cbn [resolveConsts]. unfold mbind, M_bind, bind.
  destruct Hin as [->|Hin].
  - specialize (Hc g). destruct (InjectOption c info g) as [[o|msg] g'];
      [discriminate|reflexivity].
  - destruct (InjectOption c' info g) as [[o|msg] g']; [|reflexivity].
    specialize (IH Hin g').
    destruct (resolveConsts cs info g') as [[os|msg] g'']; [discriminate|reflexivity].
Qed.

(** C5. When the module-version map has no entry for google.golang.org/grpc,
    [framePosConst] and [serverAddrConst] each return the unknown-module
    error instead of a value, and resolving any list of constants that
    contains one of them ends in an error. *)
Theorem resolvers_require_module (info : process_Info) (g : Globals) :
  Modules info !! pkg = None ->
  framePosConst_InjectOption info g =
    (Err "unknown module version: google.golang.org/grpc", g) /\
  serverAddrConst_InjectOption info g =
    (Err "unknown module version: google.golang.org/grpc", g) /\
  forall cs : list probe_Const,
    In framePosConst cs \/ In serverAddrConst cs ->
    is_Err (resolveConsts cs info g).1 = true.
Proof.
  intros H. split; [now apply framePosConst_missing|].
  split; [now apply serverAddrConst_missing|].
  intros cs [Hin|Hin].
  - apply (resolveConsts_aborts framePosConst); [|exact Hin].
    intros g'. cbn [InjectOption framePosConst].
    now rewrite framePosConst_missing.
  - apply (resolveConsts_aborts serverAddrConst); [|exact Hin].
    intros g'. cbn [InjectOption serverAddrConst].
    now rewrite serverAddrConst_missing.
Qed.

(** C6. Invoking [framePosConst], [serverAddrConst], or both in the order of
    the probe's constant list, a second time against the same module-version
    map yields the same injected values (or the same error) as the first
    invocation, starting from any value of the process-wide flag. *)
Theorem resolvers_idempotent (info : process_Info) (g : Globals) :
  (framePosConst_InjectOption info (framePosConst_InjectOption info g).2).1 =
    (framePosConst_InjectOption info g).1 /\
  (serverAddrConst_InjectOption info (serverAddrConst_InjectOption info g).2).1 =
    (serverAddrConst_InjectOption info g).1 /\
  (resolveBoth info (resolveBoth info g).2).1 = (resolveBoth info g).1.
Proof.
  unfold resolveBoth, mbind, M_bind, bind, mret, M_ret, ret.
  destruct (Modules info !! pkg) as [ver|] eqn:H.
  - rewrite ?(serverAddrConst_found _ _ _ H), ?(framePosConst_found _ _ _ H).
    cbn [fst snd serverAddr].
    rewrite ?(serverAddrConst_found _ _ _ H), ?(framePosConst_found _ _ _ H).
    cbn [fst snd serverAddr].
    destruct (GreaterThanEqual ver serverAddrMinVersion), (serverAddr g);
      repeat split; reflexivity.
  - rewrite ?(serverAddrConst_missing _ _ H), ?(framePosConst_missing _ _ H).
    cbn [fst snd].
    rewrite ?(serverAddrConst_missing _ _ H), ?(framePosConst_missing _ _ H).
    repeat split; reflexivity.
Qed.

(** ** Event processing *)

Lemma bytes_Equal_eq (a b : list byte) : bytes_Equal a b = true <-> a = b.
Proof.
  revert b. induction a as [|x a IH]; intros [|y b]; cbn [bytes_Equal];
    try (split; [discriminate|congruence]); [tauto|].
  rewrite andb_true_iff, IH. split.
  - intros [Hxy ->]. now rewrite (Byte.byte_dec_bl _ _ Hxy).
  - intros [= -> ->]. split; [now apply Byte.byte_dec_lb|reflexivity].
Qed.

Lemma SpanID_IsValid_nonzero (s : list byte) :
  SpanID_IsValid s = true <-> s <> nilSpanID.
Proof.
  unfold SpanID_IsValid. rewrite negb_true_iff.
  destruct (bytes_Equal s nilSpanID) eqn:E.
  - apply bytes_Equal_eq in E. split; [discriminate|congruence].
  - split; [|reflexivity]. intros _ Hs. apply bytes_Equal_eq in Hs. congruence.
Qed.

(** [IndexByte] finds the place where [untilNull] stops. *)
Lemma IndexByte_untilNull (s : list byte) :
  (IndexByte s x00 = -1 /\ untilNull s = s) \/
  (0 <= IndexByte s x00 < Z.of_nat (length s) /\
   untilNull s = take (Z.to_nat (IndexByte s x00)) s).
Proof.
  induction s as [|b s IH]; cbn [IndexByte untilNull length]; [now left|].
  destruct (Byte.eqb b x00); [right; split; [lia|reflexivity]|].
  destruct IH as [[Hi Hu]|[Hi Hu]].
  - left. rewrite Hi, Hu. now split.
  - right. destruct (IndexByte s x00 =? -1) eqn:E; [lia|].
    split; [lia|].
    replace (Z.to_nat (IndexByte s x00 + 1)) with (S (Z.to_nat (IndexByte s x00)))
      by lia.
    cbn [take]. now rewrite Hu.
Qed.

Lemma ByteSliceToString_untilNull (s : list byte) :
  ByteSliceToString s = String.string_of_list_byte (untilNull s).
Proof.
  unfold ByteSliceToString.
  destruct (IndexByte_untilNull s) as [[Hi Hu]|[Hi Hu]].
  - now rewrite Hi, Hu.
  - destruct (IndexByte s x00 =? -1) eqn:E; [lia|]. cbn [negb]. now rewrite Hu.
Qed.

Lemma untilNull_prefix (s : list byte) :
  exists k, (k <= length s)%nat /\ untilNull s = take k s.
Proof.
  destruct (IndexByte_untilNull s) as [[_ Hu]|[Hi Hu]].
  - exists (length s). split; [lia|]. now rewrite firstn_all.
  - exists (Z.to_nat (IndexByte s x00)). split; [lia|exact Hu].
Qed.

Lemma untilNull_no_null (s : list byte) :
  Forall (fun b => b <> x00) s -> untilNull s = s.
Proof.
  induction 1 as [|b s Hb _ IH]; cbn [untilNull]; [reflexivity|].
  destruct (Byte.eqb b x00) eqn:E; [now apply Byte.byte_dec_bl in E|].
  now rewrite IH.
Qed.

Lemma isErrorCode_errorClass (c : Z) :
  isErrorCode c = true <-> In c errorClassCodes.
Proof.
  unfold isErrorCode, errorClassCodes. cbn [In].
  rewrite !orb_true_iff, !Z.eqb_eq. intuition congruence.
Qed.

(** [processFn] never fails, leaves the globals alone, and returns exactly
    one span, whose fields are as follows. *)
Lemma processFn_span (e : event) (g : Globals) :
  exists span : ptrace.Span,
    processFn e g = (Ok [span], g) /\
    ptrace.Name span = ByteSliceToString (Method e) /\
    ptrace.Kind span = ptrace.SpanKindServer /\
    ptrace.ParentSpanID span =
      (if SpanID_IsValid (SpanID (ParentSpanContext (BaseSpanProperties e)))
       then SpanID (ParentSpanContext (BaseSpanProperties e))
       else ptrace.emptySpanID) /\
    ptrace.Status span =
      (if negb (HasStatus e =? 0) && isErrorCode (StatusCode e)
       then ptrace.StatusCodeError else ptrace.StatusCodeUnset) /\
    ptrace.Attributes span =
      pdataconv_Attributes pcommon.NewMap (eventAttrs (serverAddr g) e).
Proof.
  unfold processFn, eventAttrs, mbind, M_bind, bind, load_serverAddr, mret,
    M_ret, ret.
  destruct g as [sa].
  destruct (SpanID_IsValid (SpanID (ParentSpanContext (BaseSpanProperties e)))),
    (negb (HasStatus e =? 0)), (isErrorCode (StatusCode e)), sa;
    cbn [serverAddr andb]; eexists; repeat split; reflexivity.
Qed.

(** C4. The span's status is error exactly when the event's has-status flag
    is non-zero and its status code is one of Unknown, DeadlineExceeded,
    Unimplemented, Internal, Unavailable, DataLoss; for any other code, or
    with the flag zero, the status stays unset. *)
Theorem status_mapping (e : event) (g : Globals) :
  exists span : ptrace.Span,
    processFn e g = (Ok [span], g) /\
    (HasStatus e <> 0 /\ In (StatusCode e) errorClassCodes ->
     ptrace.Status span = ptrace.StatusCodeError) /\
    (HasStatus e = 0 \/ ~ In (StatusCode e) errorClassCodes ->
     ptrace.Status span = ptrace.StatusCodeUnset).
Proof.
  destruct (processFn_span e g) as (span & Hp & _ & _ & _ & Hs & _).
  exists span. split; [exact Hp|]. rewrite Hs. split.
  - intros [Hf Hc]. apply isErrorCode_errorClass in Hc. rewrite Hc.
    apply Z.eqb_neq in Hf. now rewrite Hf.
  - intros [Hf|Hc].
    + now rewrite Hf.
    + destruct (isErrorCode (StatusCode e)) eqn:E.
      * apply isErrorCode_errorClass in E. contradiction.
      * now rewrite andb_false_r.
Qed.

(** C7. The span's name is the 100-byte Method buffer truncated at its first
    null byte: it is a prefix of the buffer of at most 100 bytes, a buffer
    holding Foo followed by nulls gives the name Foo, and a buffer without a
    null byte gives all of its 100 bytes. *)
Theorem span_name_decoding (e : event) (g : Globals) :
  event_wf e ->
  exists span : ptrace.Span,
    processFn e g = (Ok [span], g) /\
    ptrace.Name span = String.string_of_list_byte (untilNull (Method e)) /\
    (exists k, (k <= 100)%nat /\
       String.list_byte_of_string (ptrace.Name span) = take k (Method e)) /\
    (Method e = fooMethod -> ptrace.Name span = "Foo") /\
    (Forall (fun b => b <> x00) (Method e) ->
     String.list_byte_of_string (ptrace.Name span) = Method e /\
     length (String.list_byte_of_string (ptrace.Name span)) = 100%nat).
Proof.
  intros (Hlen & _).
  destruct (processFn_span e g) as (span & Hp & Hn & _).
  exists span. split; [exact Hp|].
  rewrite Hn, ByteSliceToString_untilNull.
  rewrite String.list_byte_of_string_of_list_byte.
  split; [reflexivity|]. split; [|split].
  - destruct (untilNull_prefix (Method e)) as (k & Hk & Hu).
    exists k. split; [lia|exact Hu].
  - intros ->. reflexivity.
  - intros Hnz. rewrite (untilNull_no_null _ Hnz). split; [reflexivity|exact Hlen].
Qed.

(** C8. The span carries the event's parent span identifier when that
    identifier is valid (not all zero) and keeps the empty parent identifier
    of a trace root otherwise; so the span has a parent exactly when the
    event's parent identifier is valid. *)
Theorem parent_span_iff_valid (e : event) (g : Globals) :
  exists span : ptrace.Span,
    processFn e g = (Ok [span], g) /\
    (SpanID_IsValid (SpanID (ParentSpanContext (BaseSpanProperties e))) = true ->
     ptrace.ParentSpanID span = SpanID (ParentSpanContext (BaseSpanProperties e))) /\
    (SpanID_IsValid (SpanID (ParentSpanContext (BaseSpanProperties e))) = false ->
     ptrace.ParentSpanID span = ptrace.emptySpanID) /\
    (ptrace.ParentSpanID span <> ptrace.emptySpanID <->
     SpanID (ParentSpanContext (BaseSpanProperties e)) <> nilSpanID).
Proof.
  destruct (processFn_span e g) as (span & Hp & _ & _ & Hpar & _).
  exists span. split; [exact Hp|]. rewrite Hpar.
  destruct (SpanID_IsValid (SpanID (ParentSpanContext (BaseSpanProperties e))))
    eqn:E.
  - apply SpanID_IsValid_nonzero in E.
    split; [reflexivity|]. split; [discriminate|]. tauto.
  - split; [discriminate|]. split; [reflexivity|].
    split; [congruence|]. intros Hnz. apply SpanID_IsValid_nonzero in Hnz.
    congruence.
Qed.

(** C9. [processFn] returns exactly one span, and that span's attributes hold
    rpc.system = grpc, rpc.service = the decoded method name, and
    rpc.grpc.status_code = the event's numeric status code. *)
Theorem identity_attributes (e : event) (g : Globals) :
  exists span : ptrace.Span,
    processFn e g = (Ok [span], g) /\
    pcommon.Get (ptrace.Attributes span) "rpc.system" =
      Some (attribute.STRING "grpc") /\
    pcommon.Get (ptrace.Attributes span) "rpc.service" =
      Some (attribute.STRING (ByteSliceToString (Method e))) /\
    pcommon.Get (ptrace.Attributes span) "rpc.grpc.status_code" =
      Some (attribute.INT64 (StatusCode e)).
Proof.
  destruct (processFn_span e g) as (span & Hp & _ & _ & _ & _ & Ha).
  exists span. split; [exact Hp|]. rewrite Ha. unfold eventAttrs.
  destruct (negb (HasStatus e =? 0)), (serverAddr g); repeat split; reflexivity.
Qed.

(** The address attributes are present exactly when the flag is set. *)
Lemma address_attributes (e : event) (g : Globals) :
  exists span : ptrace.Span,
    processFn e g = (Ok [span], g) /\
    pcommon.Get (ptrace.Attributes span) "server.address" =
      (if serverAddr g
       then Some (attribute.STRING (net_IP_String (IP (LocalAddr e))))
       else None) /\
    pcommon.Get (ptrace.Attributes span) "server.port" =
      (if serverAddr g then Some (attribute.INT64 (Port (LocalAddr e))) else None).
Proof.
  destruct (processFn_span e g) as (span & Hp & _ & _ & _ & _ & Ha).
  exists span. split; [exact Hp|]. rewrite Ha. unfold eventAttrs.
  destruct (negb (HasStatus e =? 0)), (serverAddr g); repeat split; reflexivity.
Qed.

(** ** The process-wide flag across target processes *)

Lemma GreaterThanEqual_release (a b c x y z : Z) :
  GreaterThanEqual (release a b c) (release x y z) =
  (Compare (release a b c) (release x y z) >=? 0).
Proof. reflexivity. Qed.

(** On a freshly started agent a version below the minimum resolves to a
    false flag, and events are then processed without address attributes. *)
Lemma serverAddr_fresh_below_min (info : process_Info) (ver : Version) (e : event) :
  Modules info !! pkg = Some ver ->
  GreaterThanEqual ver serverAddrMinVersion = false ->
  exists span : ptrace.Span,
    (o ← serverAddrConst_InjectOption info ;
     spans ← processFn e ;
     mret (o, spans)) initGlobals
    = (Ok (WithKeyValue "server_addr_supported" false, [span]), initGlobals) /\
    pcommon.Get (ptrace.Attributes span) "server.address" = None /\
    pcommon.Get (ptrace.Attributes span) "server.port" = None.
Proof.
  intros Hm Hlt.
  destruct (address_attributes e initGlobals) as (span & Hp & Ha & Hport).
  exists span. unfold mbind, M_bind, bind.
  rewrite (serverAddrConst_found _ _ _ Hm), Hlt. cbn [orb serverAddr initGlobals].
  change {| serverAddr := false |} with initGlobals. rewrite Hp.
  now repeat split.
Qed.

(** C1 (the code departs from the claim). After a target whose
    google.golang.org/grpc is at 1.60.0 has been resolved, resolving a target
    at 1.59.0 still injects a true server_addr_supported flag, and every
    event processed afterwards carries the server address and port
    attributes: the flag of the earlier target is carried over. *)
Theorem serverAddr_flag_carried_over (e : event) :
  exists span : ptrace.Span,
    (serverAddrConst_InjectOption (detected (release 1 60 0)) ;;
     o ← serverAddrConst_InjectOption (detected (release 1 59 0)) ;
     spans ← processFn e ;
     mret (o, spans)) initGlobals
    = (Ok (WithKeyValue "server_addr_supported" true, [span]),
       {| serverAddr := true |}) /\
    GreaterThanEqual (release 1 59 0) serverAddrMinVersion = false /\
    pcommon.Get (ptrace.Attributes span) "server.address" =
      Some (attribute.STRING (net_IP_String (IP (LocalAddr e)))) /\
    pcommon.Get (ptrace.Attributes span) "server.port" =
      Some (attribute.INT64 (Port (LocalAddr e))).
Proof.
  destruct (address_attributes e {| serverAddr := true |})
    as (span & Hp & Ha & Hport).
  exists span. unfold mbind, M_bind, bind.
  rewrite (serverAddrConst_found _ _ _ (detected_lookup (release 1 60 0))).
  cbv beta iota zeta.
  rewrite (serverAddrConst_found _ _ _ (detected_lookup (release 1 59 0))).
  change serverAddrMinVersion with (release 1 60 0).
  rewrite !GreaterThanEqual_release, !Compare_release.
  cbn [Z.ltb Z.geb Z.compare Pos.compare Pos.compare_cont orb serverAddr].
  rewrite Hp. now repeat split.
Qed.

(** ** Further properties of the attachment points *)

(** [GreaterThanEqual] against a release version, by the numbers: a version
    with the same three numbers passes only if it is a release itself. *)
Lemma GreaterThanEqual_vs_release (a b c : Z) (p md : string) (x y z : Z) :
  GreaterThanEqual (semver_New a b c p md) (release x y z) =
  (x <? a) || ((a =? x) && ((y <? b) || ((b =? y) &&
    ((z <? c) || ((c =? z) && String.eqb p EmptyString))))).
Proof.
  unfold GreaterThanEqual, Compare, release, semver_New, compareSegment.
  cbn [major minor patch pre]. rewrite !Z.gtb_ltb.
  destruct (Z.ltb_spec a x), (Z.ltb_spec x a), (Z.eqb_spec a x); try lia;
    cbn; try reflexivity;
  destruct (Z.ltb_spec b y), (Z.ltb_spec y b), (Z.eqb_spec b y); try lia;
    cbn; try reflexivity;
  destruct (Z.ltb_spec c z), (Z.ltb_spec z c), (Z.eqb_spec c z); try lia;
    cbn; try reflexivity;
  destruct (String.eqb p EmptyString); reflexivity.
Qed.

(** A pre-release version satisfies no comparison against a release. *)
Lemma constraint_check_prerelease (op : constraintOp) (x y z : Z) (v : Version) :
  pre v <> EmptyString ->
  constraint_check (mkConstraint op (release x y z)) v = false.
Proof.
  intros Hp. apply String.eqb_neq in Hp.
  unfold constraint_check. cbn [con release semver_New pre]. now rewrite Hp.
Qed.

(** X1. For every release version of google.golang.org/grpc exactly one
    handleStream attachment point is satisfied: the one for transport.Stream
    below 1.69.0, the one for transport.ServerStream from 1.69.0 on. *)
Theorem handleStream_release_coverage
    (mods : gmap string Version) (a b c : Z) :
  0 <= a -> 0 <= b -> 0 <= c ->
  mods !! pkg = Some (release a b c) ->
  (a = 0 \/ (a = 1 /\ b < 69) ->
   satisfiedFor mods (Sym up_handleStream) = [up_handleStream]) /\
  (1 < a \/ (a = 1 /\ 69 <= b) ->
   satisfiedFor mods (Sym up_handleStream) = [up_handleStream2]).
Proof.
  intros Ha Hb Hc H.
  destruct (satisfied_release _ _ _ _ H) as (E1 & E2 & _).
  change serverStreamVersion with (release 1 69 0) in *.
  rewrite Compare_release in E1, E2.
  unfold satisfiedFor, Uprobes. cbn [List.filter].
  change (Sym up_handleStream =? Sym up_handleStream)%string with true.
  change (Sym up_handleStream2 =? Sym up_handleStream)%string with true.
  change (Sym up_operateHeaders =? Sym up_handleStream)%string with false.
  change (Sym up_WriteStatus =? Sym up_handleStream)%string with false.
  change (Sym up_writeStatus =? Sym up_handleStream)%string with false.
  cbn [andb]. rewrite E1, E2.
  split; intros Hv;
    destruct (Z.ltb_spec a 1), (Z.ltb_spec 1 a), (Z.ltb_spec b 69),
      (Z.ltb_spec 69 b), (Z.ltb_spec c 0), (Z.ltb_spec 0 c);
    try lia; reflexivity.
Qed.

(** X2. When the detected google.golang.org/grpc version carries a
    pre-release tag, none of the version-gated attachment points is
    satisfied: only operateHeaders, which has no constraint, remains. *)
Theorem prerelease_only_operateHeaders
    (mods : gmap string Version) (v : Version) :
  mods !! pkg = Some v ->
  pre v <> EmptyString ->
  List.filter (Uprobe_satisfied mods) Uprobes = [up_operateHeaders].
Proof.
  intros H Hp.
  unfold Uprobes, Uprobe_satisfied, PackageConstraints_met, Constraints_Check.
  cbn [List.filter up_handleStream up_handleStream2 up_operateHeaders
       up_WriteStatus up_writeStatus PackageConstraints Package Constraints
       forallb existsb].
  change "google.golang.org/grpc" with pkg. rewrite H.
  change serverStreamVersion with (release 1 69 0).
  change writeStatusMinVersion with (release 1 40 0).
  rewrite !(constraint_check_prerelease _ _ _ _ _ Hp). reflexivity.
Qed.

(** X3. The status-writing handler always matches the stream handler: the
    writeStatus attachment point is satisfied exactly when the handleStream
    variant for 1.69.0 and above is, and the WriteStatus attachment point is
    satisfied only together with the handleStream variant for older versions
    and never together with the newer one. *)
Theorem status_handler_follows_stream_handler (mods : gmap string Version) :
  Uprobe_satisfied mods up_writeStatus = Uprobe_satisfied mods up_handleStream2 /\
  Uprobe_satisfied mods up_WriteStatus && negb (Uprobe_satisfied mods up_handleStream)
    = false /\
  Uprobe_satisfied mods up_WriteStatus && Uprobe_satisfied mods up_handleStream2
    = false.
Proof.
  split; [reflexivity|].
  assert (Himp : Uprobe_satisfied mods up_WriteStatus = true ->
                 Uprobe_satisfied mods up_handleStream = true).
  { unfold Uprobe_satisfied, PackageConstraints_met, Constraints_Check.
    cbn [up_handleStream up_WriteStatus PackageConstraints Package Constraints
         forallb existsb].
    destruct (mods !! "google.golang.org/grpc") as [v|]; [|discriminate].
    rewrite !andb_true_r, !orb_false_r. intros Hw.
    apply andb_true_iff in Hw. exact (proj2 Hw). }
  destruct (Uprobe_satisfied mods up_WriteStatus) eqn:Ew; [|now split].
  specialize (Himp eq_refl). rewrite Himp.
  rewrite (handleStream_variants_exclusive _ Himp). now split.
Qed.

(** X4. For a release version the WriteStatus attachment point is satisfied
    exactly for the versions strictly between 1.40.0 and 1.69.0. *)
Theorem WriteStatus_release_range
    (mods : gmap string Version) (a b c : Z) :
  0 <= a -> 0 <= b -> 0 <= c ->
  mods !! pkg = Some (release a b c) ->
  (Uprobe_satisfied mods up_WriteStatus = true <->
   a = 1 /\ ((b = 40 /\ 0 < c) \/ (40 < b /\ b < 69))).
Proof.
  intros Ha Hb Hc H.
  destruct (satisfied_release _ _ _ _ H) as (_ & _ & _ & E4 & _).
  change serverStreamVersion with (release 1 69 0) in *.
  change writeStatusMinVersion with (release 1 40 0) in *.
  rewrite !Compare_release in E4. rewrite E4.
  destruct (Z.ltb_spec a 1), (Z.ltb_spec 1 a), (Z.ltb_spec b 40),
    (Z.ltb_spec 40 b), (Z.ltb_spec b 69), (Z.ltb_spec 69 b),
    (Z.ltb_spec c 0), (Z.ltb_spec 0 c);
    try lia; cbn; split; try discriminate; try lia; reflexivity.
Qed.

(** ** Further properties of the constant resolvers *)

(** X5. [framePosConst] injects a true is_new_frame_pos exactly for the
    versions from 1.60.0 on, a pre-release of 1.60.0 itself counting as
    older; build metadata plays no part, and the package globals are left as
    they were. *)
Theorem framePos_threshold
    (info : process_Info) (a b c : Z) (p md : string) (g : Globals) :
  Modules info !! pkg = Some (semver_New a b c p md) ->
  framePosConst_InjectOption info g =
    (Ok (WithKeyValue "is_new_frame_pos"
           ((1 <? a) || ((a =? 1) && ((60 <? b) || ((b =? 60) &&
              ((0 <? c) || ((c =? 0) && String.eqb p EmptyString))))))),
     g).
Proof.
  intros H. rewrite (framePosConst_found _ _ _ H).
  change paramChangeVer with (release 1 60 0).
  now rewrite GreaterThanEqual_vs_release.
Qed.

(** X6. Whenever [serverAddrConst] resolves, the value it injects is the
    value of the process-wide flag it leaves behind, so an event processed
    next carries the server address attribute exactly when the injected
    server_addr_supported constant is true. *)
Theorem serverAddr_injected_matches_flag
    (info : process_Info) (g g' : Globals) (o : inject_Option) (e : event) :
  serverAddrConst_InjectOption info g = (Ok o, g') ->
  o = WithKeyValue "server_addr_supported" (serverAddr g') /\
  exists span : ptrace.Span,
    processFn e g' = (Ok [span], g') /\
    (is_Some (pcommon.Get (ptrace.Attributes span) "server.address") <->
     optionValue o = true) /\
    (is_Some (pcommon.Get (ptrace.Attributes span) "server.port") <->
     optionValue o = true).
Proof.
  intros H.
  assert (Ho : o = WithKeyValue "server_addr_supported" (serverAddr g')).
  { destruct (Modules info !! pkg) as [ver|] eqn:Hm.
    - rewrite (serverAddrConst_found _ _ _ Hm) in H. cbv zeta in H.
      injection H as <- <-. reflexivity.
    - rewrite (serverAddrConst_missing _ _ Hm) in H. discriminate. }
  split; [exact Ho|].
  destruct (address_attributes e g') as (span & Hp & Ha & Hport).
  exists span. split; [exact Hp|]. rewrite Ha, Hport, Ho. cbn [optionValue].
  destruct (serverAddr g'); split; split;
    try discriminate; try reflexivity; eauto; intros [? [=]].
Qed.

(** X7. Over any sequence of calls into the package the flag [serverAddr] is
    true at the end exactly when it was true at the start or some call
    resolved [serverAddrConst] for a target at or above the minimum version:
    nothing ever lowers it, and neither [framePosConst], a failed resolution
    nor [processFn] changes it. *)
Theorem serverAddr_flag_history (cs : list apiCall) (g : Globals) :
  serverAddr (apiRun g cs) = serverAddr g || existsb raisesServerAddr cs.
Proof.
  unfold apiRun. revert g.
  induction cs as [|c cs IH]; intros g; cbn [fold_left existsb].
  - now rewrite orb_false_r.
  - rewrite IH. rewrite orb_assoc. f_equal.
    destruct c as [info|info|e]; cbn [apiStep raisesServerAddr].
    + destruct (Modules info !! pkg) as [ver|] eqn:Hm.
      * rewrite (framePosConst_found _ _ _ Hm). cbn [snd]. now rewrite orb_false_r.
      * rewrite (framePosConst_missing _ _ Hm). cbn [snd]. now rewrite orb_false_r.
    + destruct (Modules info !! pkg) as [ver|] eqn:Hm.
      * rewrite (serverAddrConst_found _ _ _ Hm). cbn [snd serverAddr].
        apply orb_comm.
      * rewrite (serverAddrConst_missing _ _ Hm). cbn [snd]. now rewrite orb_false_r.
    + destruct (processFn_span e g) as (span & Hp & _). rewrite Hp. cbn [snd].
      now rewrite orb_false_r.
Qed.

(** X8. On a freshly started agent the two resolvers agree for every target:
    both fail with the same error when the module is unknown, and otherwise
    is_new_frame_pos and server_addr_supported are injected with the same
    value. *)
Theorem fresh_resolvers_agree (info : process_Info) :
  match (framePosConst_InjectOption info initGlobals).1,
        (serverAddrConst_InjectOption info initGlobals).1 with
  | Ok fp, Ok sa => optionValue fp = optionValue sa
  | Err m1, Err m2 => m1 = m2
  | _, _ => False
  end.
Proof.
  destruct (Modules info !! pkg) as [ver|] eqn:Hm.
  - rewrite (framePosConst_found _ _ _ Hm), (serverAddrConst_found _ _ _ Hm).
    cbn [fst optionValue serverAddr initGlobals]. now rewrite orb_false_r.
  - now rewrite (framePosConst_missing _ _ Hm), (serverAddrConst_missing _ _ Hm).
Qed.

(** ** Further properties of event processing *)

Lemma untilNull_cut (name rest : list byte) :
  Forall (fun b => b <> x00) name ->
  untilNull (name ++ x00 :: rest) = name.
Proof.
  induction 1 as [|b name Hb _ IH]; cbn [untilNull app Byte.eqb]; [reflexivity|].
  destruct (Byte.eqb b x00) eqn:E; [now apply Byte.byte_dec_bl in E|].
  now rewrite IH.
Qed.

Lemma untilNull_nonzero (s : list byte) :
  Forall (fun b => b <> x00) (untilNull s).
Proof.
  induction s as [|b s IH]; cbn [untilNull]; [constructor|].
  destruct (Byte.eqb b x00) eqn:E; [constructor|].
  constructor; [now apply Byte.eqb_false|exact IH].
Qed.

Lemma untilNull_length (s : list byte) :
  (length (untilNull s) <= length s)%nat.
Proof.
  induction s as [|b s IH]; cbn [untilNull length]; [lia|].
  destruct (Byte.eqb b x00); cbn [length]; lia.
Qed.

Lemma all_zero_nilSpanID (s : list byte) :
  length s = 8%nat -> Forall (fun b => b = x00) s -> s = nilSpanID.
Proof.
  intros Hlen Hz. unfold nilSpanID.
  do 9 (destruct s as [|? s]; try discriminate Hlen).
  repeat match goal with
         | H : Forall _ (_ :: _) |- _ => inversion H; subst; clear H
         end.
  reflexivity.
Qed.

(** X9. The flag [serverAddr] decides the two address attributes and nothing
    else: with the flag set the span holds server.address (the formatted
    16-byte address) and server.port (the event's port), with the flag clear
    it holds neither, and every other attribute is the same either way. *)
Theorem address_attributes_follow_flag (e : event) (g : Globals) :
  exists span : ptrace.Span,
    processFn e g = (Ok [span], g) /\
    pcommon.Get (ptrace.Attributes span) "server.address" =
      (if serverAddr g
       then Some (attribute.STRING (net_IP_String (IP (LocalAddr e))))
       else None) /\
    pcommon.Get (ptrace.Attributes span) "server.port" =
      (if serverAddr g then Some (attribute.INT64 (Port (LocalAddr e))) else None) /\
    forall (g' : Globals) (k : string),
      k <> "server.address" -> k <> "server.port" ->
      exists span' : ptrace.Span,
        processFn e g' = (Ok [span'], g') /\
        pcommon.Get (ptrace.Attributes span') k =
        pcommon.Get (ptrace.Attributes span) k.
Proof.
  destruct (processFn_span e g) as (span & Hp & _ & _ & _ & _ & Ha).
  exists span. split; [exact Hp|]. rewrite Ha.
  split; [|split].
  - unfold eventAttrs.
    destruct (negb (HasStatus e =? 0)), (serverAddr g); reflexivity.
  - unfold eventAttrs.
    destruct (negb (HasStatus e =? 0)), (serverAddr g); reflexivity.
  - intros g' k Ha' Hport'.
    destruct (processFn_span e g') as (span' & Hp' & _ & _ & _ & _ & Ha2).
    exists span'. split; [exact Hp'|]. rewrite Ha2. unfold eventAttrs.
    destruct (negb (HasStatus e =? 0)), (serverAddr g), (serverAddr g');
      repeat match goal with
             | |- context [pdataconv_Attributes ?a ?b] =>
                 let m := eval cbn in (pdataconv_Attributes a b) in
                 change (pdataconv_Attributes a b) with m
             end;
      cbn [pcommon.Get];
      repeat match goal with
             | |- context [String.eqb ?a k] => destruct (String.eqb_spec a k)
             end;
      unfold semconv.ServerAddressKey, semconv.ServerPortKey in *;
      congruence.
Qed.

(** X10. [processFn] never reports an OK status: the span's status is either
    unset or error, and it is error only for an event whose has-status flag
    is set and whose code lies between Unknown (2) and DataLoss (15). *)
Theorem status_never_ok (e : event) (g : Globals) :
  exists span : ptrace.Span,
    processFn e g = (Ok [span], g) /\
    ptrace.Status span <> ptrace.StatusCodeOk /\
    (ptrace.Status span = ptrace.StatusCodeError ->
     HasStatus e <> 0 /\ codes.Unknown <= StatusCode e <= codes.DataLoss) /\
    (StatusCode e = codes.OK -> ptrace.Status span = ptrace.StatusCodeUnset).
Proof.
  destruct (processFn_span e g) as (span & Hp & _ & _ & _ & Hs & _).
  exists span. split; [exact Hp|]. rewrite Hs.
  destruct (Z.eqb_spec (HasStatus e) 0) as [Hz|Hz]; cbn [negb andb].
  - repeat split; try discriminate.
  - destruct (isErrorCode (StatusCode e)) eqn:E.
    + apply isErrorCode_errorClass in E.
      unfold errorClassCodes in E. cbn [In] in E.
      unfold codes.Unknown, codes.DeadlineExceeded, codes.Unimplemented,
        codes.Internal, codes.Unavailable, codes.DataLoss, codes.OK in *.
      repeat split; try discriminate; try exact Hz; lia.
    + repeat split; discriminate.
Qed.

(** X11. Decoding undoes null padding: if the Method buffer holds a name
    without null bytes, either filling the buffer or followed by a null byte
    and anything after it, the span's name is that name. *)
Theorem method_round_trip
    (e : event) (g : Globals) (name rest : list byte) :
  Forall (fun b => b <> x00) name ->
  Method e = name \/ Method e = (name ++ x00 :: rest)%list ->
  exists span : ptrace.Span,
    processFn e g = (Ok [span], g) /\
    ptrace.Name span = String.string_of_list_byte name.
Proof.
  intros Hn Hm.
  destruct (processFn_span e g) as (span & Hp & Hname & _).
  exists span. split; [exact Hp|].
  rewrite Hname, ByteSliceToString_untilNull.
  destruct Hm as [-> | ->].
  - now rewrite untilNull_no_null.
  - now rewrite untilNull_cut.
Qed.

(** X12. The span's name never contains a null byte and is never longer than
    the Method buffer. *)
Theorem span_name_has_no_null (e : event) (g : Globals) :
  exists span : ptrace.Span,
    processFn e g = (Ok [span], g) /\
    Forall (fun b => b <> x00) (String.list_byte_of_string (ptrace.Name span)) /\
    (length (String.list_byte_of_string (ptrace.Name span)) <= length (Method e))%nat.
Proof.
  destruct (processFn_span e g) as (span & Hp & Hname & _).
  exists span. split; [exact Hp|].
  rewrite Hname, ByteSliceToString_untilNull.
  rewrite String.list_byte_of_string_of_list_byte.
  split; [apply untilNull_nonzero|apply untilNull_length].
Qed.

(** X13. For an 8-byte parent span identifier: if some byte is non-zero the
    span carries that identifier as its parent, and if all bytes are zero
    the span keeps the empty parent identifier. *)
Theorem parent_by_bytes (e : event) (g : Globals) :
  length (SpanID (ParentSpanContext (BaseSpanProperties e))) = 8%nat ->
  exists span : ptrace.Span,
    processFn e g = (Ok [span], g) /\
    (Exists (fun b => b <> x00) (SpanID (ParentSpanContext (BaseSpanProperties e))) ->
     ptrace.ParentSpanID span = SpanID (ParentSpanContext (BaseSpanProperties e))) /\
    (Forall (fun b => b = x00) (SpanID (ParentSpanContext (BaseSpanProperties e))) ->
     ptrace.ParentSpanID span = ptrace.emptySpanID).
Proof.
  intros Hlen.
  destruct (processFn_span e g) as (span & Hp & _ & _ & Hpar & _).
  exists span. split; [exact Hp|]. rewrite Hpar.
  destruct (SpanID_IsValid (SpanID (ParentSpanContext (BaseSpanProperties e))))
    eqn:E.
  - split; [reflexivity|]. intros Hz.
    apply SpanID_IsValid_nonzero in E.
    elim E. now apply all_zero_nilSpanID.
  - split; [|reflexivity]. intros Hex.
    assert (Hnil : SpanID (ParentSpanContext (BaseSpanProperties e)) = nilSpanID).
    { destruct (bytes_Equal (SpanID (ParentSpanContext (BaseSpanProperties e)))
                  nilSpanID) eqn:Eb.
      - now apply bytes_Equal_eq.
      - unfold SpanID_IsValid in E. rewrite Eb in E. discriminate. }
    rewrite Hnil in Hex. unfold nilSpanID in Hex. cbn [repeat] in Hex.
    repeat match goal with
           | H : Exists _ (_ :: _) |- _ => inversion H; subst; clear H
           | H : Exists _ [] |- _ => inversion H
           | H : ?x <> ?x |- _ => now elim H
           end.
Qed.

(** X14. Whatever the status, the parent and the flag, the span is a sampled
    server span that copies the event's trace and span identifiers and whose
    start and end timestamps are the conversions of the event's two
    boot-relative times. *)
Theorem span_identity_fields (e : event) (g : Globals) :
  exists span : ptrace.Span,
    processFn e g = (Ok [span], g) /\
    ptrace.Kind span = ptrace.SpanKindServer /\
    ptrace.Flags span = FlagsSampled /\
    ptrace.TraceID span = TraceID (SpanContext (BaseSpanProperties e)) /\
    ptrace.SpanID span = SpanID (SpanContext (BaseSpanProperties e)) /\
    ptrace.StartTimestamp span =
      BootOffsetToTimestamp (StartTime (BaseSpanProperties e)) /\
    ptrace.EndTimestamp span =
      BootOffsetToTimestamp (EndTime (BaseSpanProperties e)).
Proof.
  unfold processFn, mbind, M_bind, bind, load_serverAddr, mret, M_ret, ret.
  destruct g as [sa].
  destruct (SpanID_IsValid (SpanID (ParentSpanContext (BaseSpanProperties e)))),
    (negb (HasStatus e =? 0)), (isErrorCode (StatusCode e)), sa;
    cbn [serverAddr]; eexists; repeat split; reflexivity.
Qed.

End Probe.

(** ** The statements at concrete inputs *)

Lemma resolver_selects_handleStream_variant_witness :
  resolveUprobes (fun _ _ => 0) {[ pkg := release 1 65 0 ]} Uprobes =
    Some [up_handleStream; up_operateHeaders; up_WriteStatus] /\
  resolveUprobes (fun _ _ => 0) {[ pkg := release 1 70 0 ]} Uprobes =
    Some [up_handleStream2; up_operateHeaders; up_writeStatus].
Proof.
  split.
  - apply (proj1 (resolver_selects_handleStream_variant (fun _ _ => 0) _)).
    apply lookup_singleton_eq.
  - apply (proj2 (resolver_selects_handleStream_variant (fun _ _ => 0) _)).
    apply lookup_singleton_eq.
Defined.

Lemma no_WriteStatus_at_min_version_witness :
  resolveUprobes (fun _ _ => 0) {[ pkg := release 1 40 0 ]} Uprobes =
    Some [up_handleStream; up_operateHeaders].
Proof.
  apply (no_WriteStatus_at_min_version (fun _ _ => 0) {[ pkg := release 1 40 0 ]}).
  apply lookup_singleton_eq.
Defined.

Lemma resolvers_require_module_witness :
  Modules (mkInfo ∅) !! pkg = None /\
  is_Err (resolveConsts [serverAddrConst (fun _ _ => 0); framePosConst (fun _ _ => 0)]
            (mkInfo ∅) initGlobals).1 = true.
Proof.
  assert (Hm : Modules (mkInfo ∅) !! pkg = None) by reflexivity.
  split; [exact Hm|].
  apply (resolvers_require_module (fun _ _ => 0) (mkInfo ∅) initGlobals Hm).
  left. right. left. reflexivity.
Defined.

Lemma span_name_decoding_witness :
  event_wf sampleEvent /\
  exists span : ptrace.Span,
    processFn (fun _ => "127.0.0.1") (fun t => t) sampleEvent initGlobals =
      (Ok [span], initGlobals) /\
    ptrace.Name span = "Foo".
Proof.
  assert (Hwf : event_wf sampleEvent) by (repeat split; reflexivity).
  split; [exact Hwf|].
  destruct (span_name_decoding (fun _ => "127.0.0.1") (fun t => t)
              sampleEvent initGlobals Hwf) as (span & Hp & _ & _ & Hfoo & _).
  exists span. split; [exact Hp|exact (Hfoo eq_refl)].
Defined.

Lemma handleStream_release_coverage_witness :
  satisfiedFor (fun _ _ => 0) {[ pkg := release 1 68 3 ]} (Sym up_handleStream) =
    [up_handleStream] /\
  satisfiedFor (fun _ _ => 0) {[ pkg := release 1 69 0 ]} (Sym up_handleStream) =
    [up_handleStream2].
Proof.
  assert (H0 : 0 <= 0) by lia. assert (H1 : 0 <= 1) by lia.
  assert (H3 : 0 <= 3) by lia. assert (H68 : 0 <= 68) by lia.
  assert (H69 : 0 <= 69) by lia.
  split.
  - apply (proj1 (handleStream_release_coverage (fun _ _ => 0)
                    {[ pkg := release 1 68 3 ]} 1 68 3 H1 H68 H3
                    (lookup_singleton_eq _ _))).
    right. lia.
  - apply (proj2 (handleStream_release_coverage (fun _ _ => 0)
                    {[ pkg := release 1 69 0 ]} 1 69 0 H1 H69 H0
                    (lookup_singleton_eq _ _))).
    right. lia.
Defined.

Lemma prerelease_only_operateHeaders_witness :
  List.filter
    (Uprobe_satisfied (fun _ _ => 0)
       {[ pkg := semver_New 1 70 0 "dev" EmptyString ]})
    Uprobes = [up_operateHeaders].
Proof.
  apply (prerelease_only_operateHeaders (fun _ _ => 0)
           {[ pkg := semver_New 1 70 0 "dev" EmptyString ]}
           (semver_New 1 70 0 "dev" EmptyString)).
  - apply lookup_singleton_eq.
  - discriminate.
Defined.

Lemma WriteStatus_release_range_witness :
  Uprobe_satisfied (fun _ _ => 0) {[ pkg := release 1 40 1 ]} up_WriteStatus = true.
Proof.
  assert (H1 : 0 <= 1) by lia. assert (H40 : 0 <= 40) by lia.
  apply (proj2 (WriteStatus_release_range (fun _ _ => 0)
                  {[ pkg := release 1 40 1 ]} 1 40 1 H1 H40 H1
                  (lookup_singleton_eq _ _))).
  split; [reflexivity|]. left. lia.
Defined.

Lemma framePos_threshold_witness :
  framePosConst_InjectOption (fun _ _ => 0)
    (detected (semver_New 1 60 0 "rc1" EmptyString)) initGlobals =
  (Ok (WithKeyValue "is_new_frame_pos" false), initGlobals).
Proof.
  exact (framePos_threshold (fun _ _ => 0)
           (detected (semver_New 1 60 0 "rc1" EmptyString)) 1 60 0 "rc1"
           EmptyString initGlobals (detected_lookup _)).
Defined.

Lemma serverAddr_injected_matches_flag_witness :
  exists span : ptrace.Span,
    processFn (fun _ => "127.0.0.1") (fun t => t) sampleEvent
      {| serverAddr := true |} = (Ok [span], {| serverAddr := true |}) /\
    is_Some (pcommon.Get (ptrace.Attributes span) "server.address").
Proof.
  assert (H : serverAddrConst_InjectOption (fun _ _ => 0)
                (detected (release 1 61 0)) initGlobals =
              (Ok (WithKeyValue "server_addr_supported" true),
               {| serverAddr := true |})) by reflexivity.
  destruct (serverAddr_injected_matches_flag (fun _ _ => 0)
              (fun _ => "127.0.0.1") (fun t => t) _ _ _ _ sampleEvent H)
    as (_ & span & Hp & Ha & _).
  exists span. split; [exact Hp|]. apply Ha. reflexivity.
Defined.

Lemma method_round_trip_witness :
  exists span : ptrace.Span,
    processFn (fun _ => "127.0.0.1") (fun t => t) sampleEvent initGlobals =
      (Ok [span], initGlobals) /\
    ptrace.Name span = "Foo".
Proof.
  assert (Hn : Forall (fun b => b <> x00) [x46; x6f; x6f])
    by (repeat constructor; discriminate).
  exact (method_round_trip (fun _ => "127.0.0.1") (fun t => t) sampleEvent
           initGlobals [x46; x6f; x6f] (repeat x00 96) Hn
           (or_intror eq_refl)).
Defined.

Lemma parent_by_bytes_witness :
  exists span : ptrace.Span,
    processFn (fun _ => "127.0.0.1") (fun t => t) sampleEvent initGlobals =
      (Ok [span], initGlobals) /\
    ptrace.ParentSpanID span = repeat x03 8.
Proof.
  destruct (parent_by_bytes (fun _ => "127.0.0.1") (fun t => t) sampleEvent
              initGlobals eq_refl) as (span & Hp & Hset & _).
  exists span. split; [exact Hp|]. apply Hset.
  apply Exists_cons_hd. discriminate.
Defined.
